(** * mesonbuild/mcompile.py: the backend agnostic [compile] entry point

    A shallow embedding of [get_backend_from_introspect] and [run], and the
    properties of the dispatch-and-translate logic proved about them.

    The Python code talks to its environment (the file system, the process
    environment, the search path, the logger and the child process).  The
    environment is a read-only record of oracles, [World]; every interaction
    that leaves a mark outside the function is recorded, in program order,
    in a trace of [event]s; a raised exception ends the computation with
    [inl].  *)

From Stdlib Require Import ZArith String Ascii List Bool Lia DecimalString.
Import ListNotations.
Local Open Scope string_scope.
Local Open Scope Z_scope.
Local Set Warnings "-register-all".

(** ** Python values the module handles *)

(** [str(n)] for a Python [int]: decimal digits, with a leading minus sign
    for negative numbers. *)
Definition str_int (n : Z) : string := NilZero.string_of_int (Z.to_int n).

(** [s.replace(a, b)] for one-character [a] and [b]. *)
Fixpoint replace_char (a b : ascii) (s : string) : string :=
  match s with
  | EmptyString => EmptyString
  | String c s' => String (if Ascii.eqb c a then b else c) (replace_char a b s')
  end.

(** [l.extend(l')] and [l.append(x)], as the values of [l] afterwards. *)
Definition extend {A} (l l' : list A) : list A := (l ++ l')%list.
Definition append {A} (l : list A) (x : A) : list A := (l ++ [x])%list.

(** *** pathlib *)

Module pathlib.

(** The two path flavours of pathlib; the interpreter picks one from the
    operating system it runs on. *)
Inductive flavour := Posix | Windows.

Definition sep (f : flavour) : ascii :=
  match f with Posix => "/"%char | Windows => "\"%char end.

(** A parsed path: [anchor] is drive and root together (empty for a
    relative path), [parts] are the components after it. *)
Record Path := mkPath { anchor : string; parts : list string }.

(** [p / name] for a relative, single-component [name]. *)
Definition joinpath (p : Path) (name : string) : Path :=
  {| anchor := anchor p; parts := (parts p ++ [name])%list |}.

(** [p.name]: the final component. *)
Definition name (p : Path) : string := last (parts p) "".

(** [str(p)]. *)
Definition str (f : flavour) (p : Path) : string :=
  match anchor p, parts p with
  | EmptyString, [] => "."
  | a, ps => a ++ String.concat (String (sep f) "") ps
  end.

(** [p.as_posix()]: [str(p)] with the flavour's separator replaced by a
    forward slash. *)
Definition as_posix (f : flavour) (p : Path) : string :=
  replace_char (sep f) "/"%char (str f p).

Definition eqb (p q : Path) : bool :=
  String.eqb (anchor p) (anchor q)
  && (if list_eq_dec string_dec (parts p) (parts q) then true else false).

End pathlib.

Abbreviation Path := pathlib.Path.
Notation "p // n" := (pathlib.joinpath p n) (at level 40, left associativity).

(** *** Parsed JSON, as [json.load] returns it *)

Inductive json :=
| JNull
| JBool (b : bool)
| JInt (n : Z)
| JFloat (literal : string)
| JStr (s : string)
| JList (items : list json)
| JDict (items : list (string * json)).

(** ** Exceptions and effects *)

Inductive exn :=
| MesonException (msg : string)
| AssertionError (msg : string)
| AttributeError
| TypeError
| KeyError (key : string)
| IndexError
| JSONDecodeError
| OSError.

Inductive event :=
| EvOpen (p : Path)               (* a file is opened for reading *)
| EvWhich (name : string)         (* shutil.which probes the search path *)
| EvGlob (dir : Path) (pattern : string)  (* a directory is scanned *)
| EvLog (args : list string)      (* mlog.log *)
| EvWarning (msg : string)        (* mlog.warning *)
| EvPopen (cmd : list string).    (* a child process is spawned *)

Inductive node_kind := NoEntry | Directory | NotDirectory.

Inductive load_result :=
| LoadOSError                     (* open() failed *)
| LoadDecodeError                 (* json.load could not parse *)
| Loaded (doc : json).

(** The environment of one invocation. *)
Record World := mkWorld {
  os_flavour : pathlib.flavour;
  node : Path -> node_kind;                 (* what a path names *)
  load_json : Path -> load_result;          (* opening and parsing a file *)
  resolve : Path -> Path;                   (* Path.resolve() *)
  glob : Path -> string -> list Path;       (* list(dir.glob(pattern)) *)
  environ : string -> option string;        (* os.environ.get *)
  which : string -> option string;          (* shutil.which *)
  (* mesonlib.Popen_safe: the exit status of the child ([p.returncode]
     once [communicate] returned), or [None] when it cannot be started. *)
  spawn : list string -> option Z
}.

Definition path_exists (w : World) (p : Path) : bool :=
  match node w p with NoEntry => false | _ => true end.

Definition is_dir (w : World) (p : Path) : bool :=
  match node w p with Directory => true | _ => false end.

(** A computation: the events it caused, and an exception or a value. *)
Definition M (A : Type) : Type := list event * (exn + A).

Definition ret {A} (a : A) : M A := ([], inr a).
Definition raise {A} (e : exn) : M A := ([], inl e).
Definition emit (ev : event) : M unit := ([ev], inr tt).

Definition bind {A B} (m : M A) (k : A -> M B) : M B :=
  match m with
  | (t, inl e) => (t, inl e)
  | (t, inr a) => let (t', r) := k a in ((t ++ t')%list, r)
  end.

Notation "x <- m ;; k" := (bind m (fun x => k))
  (at level 61, m at next level, right associativity).
Notation "m ;;; k" := (bind m (fun _ => k))
  (at level 61, right associativity).

(** ** Python operations on parsed JSON *)

(** [v == s] for a string literal [s]. *)
Definition py_eq_str (v : json) (s : string) : bool :=
  match v with JStr s' => String.eqb s' s | _ => false end.

(** The items [for x in v] visits: the elements of a list, the keys of a
    dict, the characters of a string; anything else is not iterable. *)
Definition py_iter (v : json) : M (list json) :=
  match v with
  | JList items => ret items
  | JDict items => ret (map (fun kv => JStr (fst kv)) items)
  | JStr s => ret (map (fun c => JStr (String c "")) (list_ascii_of_string s))
  | _ => raise TypeError
  end.

Fixpoint dict_get (items : list (string * json)) (key : string) : option json :=
  match items with
  | [] => None
  | (k, v) :: rest => if String.eqb k key then Some v else dict_get rest key
  end.

(** [v[key]] for a string [key]: only a dict can be indexed by a string. *)
Definition py_getitem (v : json) (key : string) : M json :=
  match v with
  | JDict items =>
      match dict_get items key with
      | Some x => ret x
      | None => raise (KeyError key)
      end
  | _ => raise TypeError
  end.

(** [bool(x)] for an optional string: [None] and [''] are false. *)
Definition truthy (x : option string) : bool :=
  match x with
  | None => false
  | Some s => negb (String.eqb s "")
  end.

(** ** Collaborators outside this module *)

(** [with path.open() as f: json.load(f)] *)
Definition json_load_file (w : World) (p : Path) : M json :=
  emit (EvOpen p) ;;;
  match load_json w p with
  | LoadOSError => raise OSError
  | LoadDecodeError => raise JSONDecodeError
  | Loaded doc => ret doc
  end.

Definition shutil_which (w : World) (name : string) : M (option string) :=
  emit (EvWhich name) ;;; ret (which w name).

Definition path_glob (w : World) (dir : Path) (pattern : string) : M (list Path) :=
  emit (EvGlob dir pattern) ;;; ret (glob w dir pattern).

(** Modelled from the spec: [mlog.log] is not part of this module; it emits
    an informational message made of its arguments. *)
Definition mlog_log (args : list string) : M unit := emit (EvLog args).

(** Modelled from the spec: [mlog.warning] is not part of this module; it
    emits a non-fatal warning. *)
Definition mlog_warning (msg : string) : M unit := emit (EvWarning msg).

(** [mesonlib.Popen_safe(cmd, ...)] followed by [p.returncode]. *)
Definition Popen_safe (w : World) (cmd : list string) : M Z :=
  emit (EvPopen cmd) ;;;
  match spawn w cmd with
  | Some status => ret status
  | None => raise OSError
  end.

(** ** get_backend_from_introspect *)

(** The loop [for option in schema: if option['name'] == 'backend': return
    option['value']]; [None] when the loop runs to its end. *)
Fixpoint scan_options (schema : list json) : M (option json) :=
  match schema with
  | [] => ret None
  | option :: rest =>
      n <- py_getitem option "name" ;;
      if py_eq_str n "backend" then
        v <- py_getitem option "value" ;;
        ret (Some v)
      else scan_options rest
  end.

Definition get_backend_from_introspect (w : World) (builddir : Path) : M json :=
  let path_to_intro := builddir // "meson-info" // "intro-buildoptions.json" in
  if negb (path_exists w path_to_intro) then
    raise (MesonException
             ("`" ++ pathlib.name path_to_intro
                  ++ "` is missing! Directory is not configured yet?"))
  else
    schema <- json_load_file w path_to_intro ;;
    items <- py_iter schema ;;
    found <- scan_options items ;;
    match found with
    | Some value => ret value
    | None =>
        raise (MesonException
                 ("`" ++ pathlib.name path_to_intro
                      ++ "` is missing `backend` option!"))
    end.

(** ** run *)

(** The [argparse.Namespace] that [add_arguments] produces. *)
Record Namespace := mkNamespace {
  builddir : Path;
  jobs : Z;
  load_average : Z;
  clean : bool
}.

(** Lines 88-97: the runner of the ninja backend. *)
Definition find_runner (w : World) : M string :=
  let runner := environ w "NINJA" in
  runner <-
    (if negb (truthy runner) then
       found_ninja <- shutil_which w "ninja" ;;
       if truthy found_ninja then ret (Some "ninja")
       else
         found_samu <- shutil_which w "samu" ;;
         if truthy found_samu then ret (Some "samu")
         else ret runner
     else ret runner) ;;
  match runner with
  | None => raise (MesonException "Cannot find either ninja or samu.")
  | Some r => mlog_log ["Found runner:"; r] ;;; ret r
  end.

(** Lines 99-108: the ninja command line, built by successive [extend] and
    [append]. *)
Definition ninja_cmd (w : World) (options : Namespace) (runner : string)
  : list string :=
  let cmd := [runner; "-C"; pathlib.as_posix (os_flavour w) (builddir options)] in
  let cmd := if 0 <? jobs options
             then extend cmd ["-j"; str_int (jobs options)] else cmd in
  let cmd := if 0 <? load_average options
             then extend cmd ["-l"; str_int (load_average options)] else cmd in
  let cmd := if clean options then append cmd "clean" else cmd in
  cmd.

(** Lines 111-126: the Visual Studio backends. *)
Definition vs_cmd (w : World) (options : Namespace) : M (list string) :=
  slns <- path_glob w (builddir options) "*.sln" ;;
  if negb (Nat.eqb (length slns) 1) then
    raise (AssertionError "More than one solution in a project?")
  else
    match slns with
    | [] => raise IndexError
    | sln :: _ =>
        let cmd := ["msbuild"; pathlib.str (os_flavour w) (resolve w sln)] in
        let cmd := if 0 <? jobs options
                   then append cmd ("-m" ++ str_int (jobs options))
                   else append cmd "-m" in
        (if negb (load_average options =? 0) then
           mlog_warning "Msbuild does not have a load-average switch, ignoring."
         else ret tt) ;;;
        let cmd := if clean options then extend cmd ["/t:Clean"] else cmd in
        ret cmd
    end.

(** Lines 86-131: the command line for the configured backend. *)
Definition backend_cmd (w : World) (options : Namespace) : M (list string) :=
  backend <- get_backend_from_introspect w (builddir options) ;;
  if py_eq_str backend "ninja" then
    runner <- find_runner w ;;
    ret (ninja_cmd w options runner)
  else
    match backend with
    | JStr s =>
        if String.prefix "vs" s then vs_cmd w options
        else
          raise (MesonException
                   ("Backend `" ++ s ++ "` is not yet supported by `compile`. "
                    ++ "Use generated project files directly instead."))
    | _ => raise AttributeError        (* no [startswith] on a non-string *)
    end.

Definition run (w : World) (options : Namespace) : M Z :=
  let bdir := builddir options in
  if negb (path_exists w bdir) then
    raise (MesonException
             ("Path to builddir "
                ++ pathlib.str (os_flavour w) (resolve w bdir)
                ++ " does not exist!"))
  else if negb (is_dir w bdir) then
    raise (MesonException "builddir path should be a directory.")
  else
    cmd <- backend_cmd w options ;;
    Popen_safe w cmd.

(** ** Reading a trace *)

(** The command lines of the child processes a trace spawned. *)
Fixpoint spawned (t : list event) : list (list string) :=
  match t with
  | [] => []
  | EvPopen cmd :: t' => cmd :: spawned t'
  | _ :: t' => spawned t'
  end.

(** The executable names a trace looked up on the search path. *)
Fixpoint probed (t : list event) : list string :=
  match t with
  | [] => []
  | EvWhich n :: t' => n :: probed t'
  | _ :: t' => probed t'
  end.

(** What [run] yields once the command line [cmd] is handed to the child. *)
Definition popen_result (w : World) (cmd : list string) : exn + Z :=
  match spawn w cmd with
  | Some status => inr status
  | None => inl OSError
  end.

(** ** Option descriptors of the introspection record *)

Definition option_name (d : json) : option json :=
  match d with JDict items => dict_get items "name" | _ => None end.

Definition option_value (d : json) : option json :=
  match d with JDict items => dict_get items "value" | _ => None end.

(** A descriptor carries a [name] and a [value]. *)
Definition is_descriptor (d : json) : bool :=
  match option_name d, option_value d with
  | Some _, Some _ => true
  | _, _ => false
  end.

Definition named_backend (d : json) : bool :=
  match option_name d with
  | Some n => py_eq_str n "backend"
  | None => false
  end.

(** A descriptor of some option other than [backend]. *)
Definition other_descriptor (d : json) : bool :=
  is_descriptor d && negb (named_backend d).

(** ** A concrete build tree, for running the model *)

Module Demo.

Definition bdir : Path := pathlib.mkPath "" ["build"].
Definition intro : Path := bdir // "meson-info" // "intro-buildoptions.json".

Definition descriptor (n v : string) : json :=
  JDict [("name", JStr n); ("value", JStr v)].

(** An introspection record whose [backend] option is [b]. *)
Definition record (b : string) : json :=
  JList [descriptor "buildtype" "debug"; descriptor "backend" b;
         descriptor "warning_level" "1"].

Definition abspath (p : Path) : Path :=
  pathlib.mkPath "/" ("home" :: pathlib.parts p).

Definition mem (s : string) (l : list string) : bool :=
  existsb (String.eqb s) l.

(** A POSIX machine with a configured tree at [build]: [doc] is what
    parsing the introspection file gives, [ninja_var] the value of
    [NINJA], [on_path] the executables of the search path, [slns] the
    solution files of the tree, [status] the exit status of any child. *)
Definition world (doc : load_result) (ninja_var : option string)
           (on_path : list string) (slns : list Path) (status : option Z)
  : World :=
  {| os_flavour := pathlib.Posix;
     node := fun p =>
       if pathlib.eqb p bdir then Directory
       else if pathlib.eqb p (bdir // "meson-info") then Directory
       else if pathlib.eqb p intro then NotDirectory
       else if pathlib.eqb p (pathlib.mkPath "" ["README"]) then NotDirectory
       else NoEntry;
     load_json := fun p => if pathlib.eqb p intro then doc else LoadOSError;
     resolve := abspath;
     glob := fun d pat =>
       if pathlib.eqb d bdir && String.eqb pat "*.sln" then slns else [];
     environ := fun k => if String.eqb k "NINJA" then ninja_var else None;
     which := fun n =>
       if mem n on_path then Some ("/usr/bin/" ++ n) else None;
     spawn := fun _ => status |}.

Definition options (j l : Z) (c : bool) : Namespace :=
  {| builddir := bdir; jobs := j; load_average := l; clean := c |}.

Definition sln : Path := bdir // "demo.sln".

End Demo.

(** The events of the Visual Studio branch between the scan of the build
    directory and the spawn. *)
Definition vs_warning (options : Namespace) : list event :=
  if load_average options =? 0 then []
  else [EvWarning "Msbuild does not have a load-average switch, ignoring."].

(** The same request with another load-average ceiling. *)
Definition with_load_average (options : Namespace) (l : Z) : Namespace :=
  {| builddir := builddir options; jobs := jobs options;
     load_average := l; clean := clean options |}.

(** The characters [str] of an integer is made of. *)
Definition is_digit (c : ascii) : bool :=
  ((48 <=? nat_of_ascii c) && (nat_of_ascii c <=? 57))%nat.

Definition int_char (c : ascii) : bool :=
  is_digit c || Ascii.eqb c "-".

Definition all_chars (f : ascii -> bool) (s : string) : bool :=
  forallb f (list_ascii_of_string s).

(** ** Further vocabulary for the properties of the whole module *)

(** Lines 46-74, [add_arguments]: the namespace argparse builds when none
    of the four options is given.  [jobs] and [load_average] default to 0,
    [--clean] is a [store_true] switch, and the string default ['.'] of
    [-C] goes through [type=Path]. *)
Definition default_options : Namespace :=
  {| builddir := pathlib.mkPath "" []; jobs := 0; load_average := 0;
     clean := false |}.

(** The same request with another job count. *)
Definition with_jobs (options : Namespace) (j : Z) : Namespace :=
  {| builddir := builddir options; jobs := j;
     load_average := load_average options; clean := clean options |}.


(** What [run] may do to its environment for the request [options]. *)
Definition run_event_allowed (options : Namespace) (ev : event) : Prop :=
  match ev with
  | EvOpen p =>
      p = builddir options // "meson-info" // "intro-buildoptions.json"
  | EvWhich n => n = "ninja" \/ n = "samu"
  | EvGlob d pattern => d = builddir options /\ pattern = "*.sln"
  | EvLog args => exists r, args = ["Found runner:"; r]
  | EvWarning msg =>
      msg = "Msbuild does not have a load-average switch, ignoring."
      /\ load_average options <> 0
  | EvPopen cmd => True
  end.

(** * Properties *)

Example demo_ninja_j4 :
  run (Demo.world (Loaded (Demo.record "ninja")) None ["ninja"; "samu"] [] (Some 1))
      (Demo.options 4 0 false)
  = ([EvOpen Demo.intro; EvWhich "ninja"; EvLog ["Found runner:"; "ninja"];
      EvPopen ["ninja"; "-C"; "build"; "-j"; "4"]], inr 1).
Proof. reflexivity. Qed.

Example demo_vs_clean :
  run (Demo.world (Loaded (Demo.record "vs2019")) None [] [Demo.sln] (Some 0))
      (Demo.options 0 2 true)
  = ([EvOpen Demo.intro; EvGlob Demo.bdir "*.sln";
      EvWarning "Msbuild does not have a load-average switch, ignoring.";
      EvPopen ["msbuild"; "/home/build/demo.sln"; "-m"; "/t:Clean"]], inr 0).
Proof. reflexivity. Qed.

Example demo_xcode :
  run (Demo.world (Loaded (Demo.record "xcode")) None ["ninja"] [] (Some 0))
      (Demo.options 0 0 false)
  = ([EvOpen Demo.intro],
     inl (MesonException "Backend `xcode` is not yet supported by `compile`. Use generated project files directly instead.")).
Proof. reflexivity. Qed.

(** ** The monad *)

Lemma bind_ret {A B} (a : A) (k : A -> M B) : bind (ret a) k = k a.
Proof. unfold bind, ret. destruct (k a). reflexivity. Qed.

Lemma bind_value {A B} (m : M A) (k : A -> M B) t a :
  m = (t, inr a) -> bind m k = ((t ++ fst (k a))%list, snd (k a)).
Proof. intros ->. unfold bind. destruct (k a). reflexivity. Qed.

Lemma bind_error {A B} (m : M A) (k : A -> M B) t e :
  m = (t, inl e) -> bind m k = (t, inl e).
Proof. intros ->. reflexivity. Qed.

(** A [bind] that yields a value ran both halves to a value. *)
Lemma bind_inr_inv {A B} (m : M A) (k : A -> M B) t b :
  bind m k = (t, inr b) ->
  exists t1 a t2, m = (t1, inr a) /\ k a = (t2, inr b) /\ t = (t1 ++ t2)%list.
Proof.
  destruct m as [t1 [e | a]]; simpl; [discriminate |].
  destruct (k a) as [t2 r] eqn:Hk. intros H. inversion H; subst.
  exists t1, a, t2. auto.
Qed.

Lemma spawned_app t1 t2 : spawned (t1 ++ t2) = (spawned t1 ++ spawned t2)%list.
Proof.
  induction t1 as [| ev t1 IH]; [reflexivity |].
  destruct ev; simpl; rewrite IH; reflexivity.
Qed.

Lemma probed_app t1 t2 : probed (t1 ++ t2) = (probed t1 ++ probed t2)%list.
Proof.
  induction t1 as [| ev t1 IH]; [reflexivity |].
  destruct ev; simpl; rewrite IH; reflexivity.
Qed.

(** ** pathlib *)

Lemma name_joinpath (p : Path) (n : string) : pathlib.name (p // n) = n.
Proof. unfold pathlib.name, pathlib.joinpath. simpl. apply last_last. Qed.

(** ** Strings *)

Lemma prefix_vs_not_ninja (s : string) :
  String.prefix "vs" s = true -> String.eqb s "ninja" = false.
Proof.
  destruct s as [| c s]; [discriminate |]. cbn [String.prefix].
  destruct (ascii_dec "v" c) as [<- | _]; [intros _; reflexivity | discriminate].
Qed.

Lemma string_of_uint_digits (d : Decimal.uint) :
  all_chars is_digit (NilEmpty.string_of_uint d) = true.
Proof.
  unfold all_chars. induction d; simpl; auto.
Qed.

Lemma str_int_chars (n : Z) : all_chars int_char (str_int n) = true.
Proof.
  assert (Hd : forall d, all_chars int_char (NilZero.string_of_uint d) = true).
  { intros d.
    assert (H : all_chars int_char (NilEmpty.string_of_uint d) = true).
    { pose proof (string_of_uint_digits d) as H. unfold all_chars in *.
      rewrite forallb_forall in *. intros c Hc. unfold int_char.
      rewrite (H c Hc). reflexivity. }
    destruct d; exact H. }
  unfold str_int. destruct (Z.to_int n) as [d | d]; simpl.
  - apply Hd.
  - unfold all_chars in *. simpl. apply Hd.
Qed.

(** No argument made of [-] and a letter is the decimal form of a number. *)
Lemma str_int_not_flag (n : Z) (c : ascii) :
  int_char c = false -> str_int n <> String "-" (String c "").
Proof.
  intros Hc Heq. pose proof (str_int_chars n) as H. rewrite Heq in H.
  unfold all_chars in H. simpl in H. rewrite Hc in H. simpl in H. discriminate.
Qed.

(** ** get_backend_from_introspect *)

Lemma py_getitem_dict (d : json) (key : string) (x : json) :
  match d with JDict items => dict_get items key | _ => None end = Some x ->
  py_getitem d key = ret x.
Proof.
  destruct d; try discriminate. simpl. intros ->. reflexivity.
Qed.

(** The scan never touches the environment. *)
Lemma scan_options_pure (schema : list json) : fst (scan_options schema) = [].
Proof.
  induction schema as [| d rest IH]; [reflexivity |].
  simpl. unfold py_getitem.
  destruct d; try reflexivity.
  destruct (dict_get items "name") as [n |]; [| reflexivity].
  rewrite bind_ret.
  destruct (py_eq_str n "backend"); [| exact IH].
  destruct (dict_get items "value"); reflexivity.
Qed.

(** Descriptors of other options are skipped. *)
Lemma scan_options_skip (before rest : list json) :
  forallb other_descriptor before = true ->
  scan_options (before ++ rest) = scan_options rest.
Proof.
  induction before as [| d before IH]; [reflexivity |].
  simpl. intros H. apply andb_prop in H as [Hd Hb].
  unfold other_descriptor, is_descriptor, named_backend in Hd.
  destruct (option_name d) as [n |] eqn:Hn; [| discriminate].
  rewrite (py_getitem_dict d "name" n Hn), bind_ret.
  apply andb_prop in Hd as [_ Hd]. apply negb_true_iff in Hd. rewrite Hd.
  apply IH, Hb.
Qed.

Lemma scan_options_hit (d : json) (rest : list json) (v : json) :
  named_backend d = true -> option_value d = Some v ->
  scan_options (d :: rest) = ret (Some v).
Proof.
  unfold named_backend. intros Hn Hv.
  destruct (option_name d) as [n |] eqn:Hname; [| discriminate].
  simpl. rewrite (py_getitem_dict d "name" n Hname), bind_ret, Hn.
  rewrite (py_getitem_dict d "value" v Hv), bind_ret. reflexivity.
Qed.

(** The reader opens at most the introspection file, and nothing else
    happens. *)
Lemma get_backend_trace (w : World) (bdir : Path) :
  let t := fst (get_backend_from_introspect w bdir) in
  t = [] \/ t = [EvOpen (bdir // "meson-info" // "intro-buildoptions.json")].
Proof.
  unfold get_backend_from_introspect.
  destruct (path_exists w _); simpl; [| left; reflexivity].
  right. unfold json_load_file.
  destruct (load_json w _) as [| | doc]; try reflexivity.
  simpl.
  assert (Hscan : forall items,
    fst (found <- scan_options items ;;
         match found with
         | Some value => ret value
         | None => raise (MesonException
             ("`" ++ pathlib.name (bdir // "meson-info" // "intro-buildoptions.json")
                  ++ "` is missing `backend` option!"))
         end) = []).
  { intros items. pose proof (scan_options_pure items) as Hp.
    destruct (scan_options items) as [t [e | [v |]]]; simpl in *; subst;
      reflexivity. }
  destruct doc; try reflexivity; simpl;
    match goal with
    | |- context [scan_options ?l] =>
        specialize (Hscan l);
        destruct (bind (scan_options l) _) as [t0 r0]; simpl in *; subst; reflexivity
    end.
Qed.

(** C5. [get_backend_from_introspect] raises a [MesonException] naming the
    introspection file when [<builddir>/meson-info/intro-buildoptions.json]
    does not exist (and then opens nothing); when the file parses to a list
    of descriptors none of which is named [backend], it raises a
    [MesonException] naming the absent [backend] option; otherwise it returns
    the value of the first descriptor named [backend], whatever follows it. *)
Theorem get_backend_from_introspect_spec (w : World) (bdir : Path) :
  let path_to_intro := bdir // "meson-info" // "intro-buildoptions.json" in
  (node w path_to_intro = NoEntry ->
   get_backend_from_introspect w bdir
   = ([], inl (MesonException
        "`intro-buildoptions.json` is missing! Directory is not configured yet?")))
  /\ (forall schema,
       node w path_to_intro <> NoEntry ->
       load_json w path_to_intro = Loaded (JList schema) ->
       forallb other_descriptor schema = true ->
       get_backend_from_introspect w bdir
       = ([EvOpen path_to_intro],
          inl (MesonException
                 "`intro-buildoptions.json` is missing `backend` option!")))
  /\ (forall before d after value,
       node w path_to_intro <> NoEntry ->
       load_json w path_to_intro = Loaded (JList (before ++ d :: after)) ->
       forallb other_descriptor before = true ->
       named_backend d = true ->
       option_value d = Some value ->
       get_backend_from_introspect w bdir
       = ([EvOpen path_to_intro], inr value)).
Proof.
  intros path_to_intro.
  assert (Hname : pathlib.name path_to_intro = "intro-buildoptions.json")
    by apply name_joinpath.
  unfold get_backend_from_introspect. fold path_to_intro.
  rewrite Hname. unfold path_exists, json_load_file.
  repeat split.
  - intros ->. reflexivity.
  - intros schema Hex Hload Hall.
    destruct (node w path_to_intro); [contradiction | |];
      rewrite Hload; simpl;
      rewrite <- (app_nil_r schema), (scan_options_skip schema [] Hall);
      reflexivity.
  - intros before d after value Hex Hload Hall Hd Hv.
    destruct (node w path_to_intro); [contradiction | |];
      rewrite Hload; simpl;
      rewrite (scan_options_skip before (d :: after) Hall),
              (scan_options_hit d after value Hd Hv);
      reflexivity.
Qed.

Lemma get_backend_from_introspect_spec_witness :
  get_backend_from_introspect
    (Demo.world LoadOSError None [] [] None) (pathlib.mkPath "" ["nowhere"])
  = ([], inl (MesonException
       "`intro-buildoptions.json` is missing! Directory is not configured yet?"))
  /\ get_backend_from_introspect
       (Demo.world (Loaded (JList [Demo.descriptor "buildtype" "debug"]))
                   None [] [] None) Demo.bdir
     = ([EvOpen Demo.intro],
        inl (MesonException
               "`intro-buildoptions.json` is missing `backend` option!"))
  /\ get_backend_from_introspect
       (Demo.world (Loaded (Demo.record "ninja")) None [] [] None) Demo.bdir
     = ([EvOpen Demo.intro], inr (JStr "ninja")).
Proof.
  split; [| split].
  - apply (get_backend_from_introspect_spec
             (Demo.world LoadOSError None [] [] None)
             (pathlib.mkPath "" ["nowhere"])).
    reflexivity.
  - apply (proj1 (proj2 (get_backend_from_introspect_spec
             (Demo.world (Loaded (JList [Demo.descriptor "buildtype" "debug"]))
                         None [] [] None) Demo.bdir))
             [Demo.descriptor "buildtype" "debug"]).
    + discriminate.
    + reflexivity.
    + reflexivity.
  - apply (proj2 (proj2 (get_backend_from_introspect_spec
             (Demo.world (Loaded (Demo.record "ninja")) None [] [] None)
             Demo.bdir))
             [Demo.descriptor "buildtype" "debug"]
             (Demo.descriptor "backend" "ninja")
             [Demo.descriptor "warning_level" "1"]).
    + discriminate.
    + reflexivity.
    + reflexivity.
    + reflexivity.
    + reflexivity.
Defined.

(** ** run, branch by branch *)

Lemma Popen_safe_eq (w : World) (cmd : list string) :
  Popen_safe w cmd = ([EvPopen cmd], popen_result w cmd).
Proof.
  unfold Popen_safe, popen_result, emit. simpl.
  destruct (spawn w cmd); reflexivity.
Qed.

Lemma run_in_directory (w : World) (options : Namespace) :
  node w (builddir options) = Directory ->
  run w options = (cmd <- backend_cmd w options ;; Popen_safe w cmd).
Proof.
  intros Hdir. unfold run, path_exists, is_dir. rewrite Hdir. reflexivity.
Qed.

(** Once the command line is there, it is spawned and its status is the
    result. *)
Lemma run_spawns (w : World) (options : Namespace) t cmd :
  node w (builddir options) = Directory ->
  backend_cmd w options = (t, inr cmd) ->
  run w options = ((t ++ [EvPopen cmd])%list, popen_result w cmd).
Proof.
  intros Hdir Hcmd. rewrite (run_in_directory w options Hdir).
  rewrite (bind_value _ _ t cmd Hcmd), Popen_safe_eq. reflexivity.
Qed.

(** A failure before that ends [run] with the same failure. *)
Lemma run_fails (w : World) (options : Namespace) t e :
  node w (builddir options) = Directory ->
  backend_cmd w options = (t, inl e) ->
  run w options = (t, inl e).
Proof.
  intros Hdir Hcmd. rewrite (run_in_directory w options Hdir).
  apply bind_error, Hcmd.
Qed.

Lemma backend_cmd_ninja (w : World) (options : Namespace) t0 t1 runner :
  get_backend_from_introspect w (builddir options) = (t0, inr (JStr "ninja")) ->
  find_runner w = (t1, inr runner) ->
  backend_cmd w options = ((t0 ++ t1)%list, inr (ninja_cmd w options runner)).
Proof.
  intros Hb Hr. unfold backend_cmd.
  rewrite (bind_value _ _ _ _ Hb). cbn [py_eq_str String.eqb].
  change (String.eqb "ninja" "ninja") with true. cbv iota.
  rewrite (bind_value _ _ _ _ Hr). simpl. rewrite app_nil_r. reflexivity.
Qed.

Lemma vs_cmd_one_solution (w : World) (options : Namespace) (sln : Path) :
  glob w (builddir options) "*.sln" = [sln] ->
  vs_cmd w options
  = ((EvGlob (builddir options) "*.sln" :: vs_warning options)%list,
     inr (["msbuild"; pathlib.str (os_flavour w) (resolve w sln);
           if 0 <? jobs options
           then ("-m" ++ str_int (jobs options))%string else "-m"]
          ++ (if clean options then ["/t:Clean"] else []))%list).
Proof.
  intros Hglob. unfold vs_cmd, path_glob, vs_warning, mlog_warning, emit.
  simpl. rewrite Hglob. simpl.
  destruct (load_average options =? 0), (0 <? jobs options), (clean options);
    reflexivity.
Qed.

Lemma vs_cmd_not_one_solution (w : World) (options : Namespace) :
  length (glob w (builddir options) "*.sln") <> 1%nat ->
  vs_cmd w options
  = ([EvGlob (builddir options) "*.sln"],
     inl (AssertionError "More than one solution in a project?")).
Proof.
  intros Hlen. unfold vs_cmd, path_glob, emit. simpl.
  apply Nat.eqb_neq in Hlen. rewrite Hlen. reflexivity.
Qed.

Lemma backend_cmd_vs (w : World) (options : Namespace) t0 s :
  get_backend_from_introspect w (builddir options) = (t0, inr (JStr s)) ->
  String.prefix "vs" s = true ->
  backend_cmd w options
  = ((t0 ++ fst (vs_cmd w options))%list, snd (vs_cmd w options)).
Proof.
  intros Hb Hvs. unfold backend_cmd.
  rewrite (bind_value _ _ _ _ Hb). cbn [py_eq_str].
  rewrite (prefix_vs_not_ninja s Hvs), Hvs. reflexivity.
Qed.

Lemma backend_cmd_other (w : World) (options : Namespace) t0 s :
  get_backend_from_introspect w (builddir options) = (t0, inr (JStr s)) ->
  s <> "ninja" ->
  String.prefix "vs" s = false ->
  backend_cmd w options
  = (t0, inl (MesonException
                ("Backend `" ++ s ++ "` is not yet supported by `compile`. "
                 ++ "Use generated project files directly instead."))).
Proof.
  intros Hb Hninja Hvs. unfold backend_cmd.
  rewrite (bind_value _ _ _ _ Hb). cbn [py_eq_str].
  apply String.eqb_neq in Hninja. rewrite Hninja, Hvs.
  simpl. rewrite app_nil_r. reflexivity.
Qed.

(** The runner resolution, case by case. *)
Lemma find_runner_override (w : World) (r : string) :
  environ w "NINJA" = Some r -> r <> "" ->
  find_runner w = ([EvLog ["Found runner:"; r]], inr r).
Proof.
  intros Henv Hne. unfold find_runner. rewrite Henv. simpl.
  apply String.eqb_neq in Hne. rewrite Hne. reflexivity.
Qed.

Lemma find_runner_trace_no_popen (w : World) :
  spawned (fst (find_runner w)) = [].
Proof.
  unfold find_runner, shutil_which, mlog_log, emit.
  destruct (environ w "NINJA") as [r |]; simpl.
  - destruct (String.eqb r ""); simpl; [| reflexivity].
    destruct (truthy (which w "ninja")); simpl; [reflexivity |].
    destruct (truthy (which w "samu")); reflexivity.
  - destruct (truthy (which w "ninja")); simpl; [reflexivity |].
    destruct (truthy (which w "samu")); reflexivity.
Qed.

Lemma get_backend_no_popen (w : World) (bdir : Path) :
  spawned (fst (get_backend_from_introspect w bdir)) = [].
Proof.
  destruct (get_backend_trace w bdir) as [H | H]; rewrite H; reflexivity.
Qed.

Lemma vs_cmd_no_popen (w : World) (options : Namespace) :
  spawned (fst (vs_cmd w options)) = [].
Proof.
  unfold vs_cmd, path_glob, mlog_warning, emit. simpl.
  destruct (Nat.eqb _ 1); simpl; [| reflexivity].
  destruct (glob w _ _); simpl; [reflexivity |].
  destruct (load_average options =? 0); reflexivity.
Qed.

(** Nothing is spawned while the command line is being worked out. *)
Lemma backend_cmd_no_popen (w : World) (options : Namespace) :
  spawned (fst (backend_cmd w options)) = [].
Proof.
  unfold backend_cmd.
  pose proof (get_backend_no_popen w (builddir options)) as Hb.
  destruct (get_backend_from_introspect w (builddir options))
    as [t0 [e | backend]]; simpl in *; [exact Hb |].
  destruct (py_eq_str backend "ninja").
  - pose proof (find_runner_trace_no_popen w) as Hr.
    destruct (find_runner w) as [t1 [e | r]]; simpl in *;
      rewrite ?app_nil_r, spawned_app, Hb, Hr; reflexivity.
  - destruct backend; simpl; rewrite ?app_nil_r; try exact Hb.
    destruct (String.prefix "vs" s); simpl; rewrite ?app_nil_r; try exact Hb.
    pose proof (vs_cmd_no_popen w options) as Hv.
    destruct (vs_cmd w options) as [t1 r]; simpl in *.
    rewrite spawned_app, Hb, Hv. reflexivity.
Qed.

Lemma all_chars_impl (f g : ascii -> bool) (s : string) :
  (forall c, f c = true -> g c = true) ->
  all_chars f s = true -> all_chars g s = true.
Proof.
  unfold all_chars. intros Hfg H. rewrite forallb_forall in *.
  intros c Hc. apply Hfg, H, Hc.
Qed.

Lemma int_char_not_space (c : ascii) :
  int_char c = true -> negb (Ascii.eqb c " ") = true.
Proof.
  intros H. destruct (Ascii.eqb_spec c " ") as [-> | _]; [discriminate H | reflexivity].
Qed.

(** * The claims *)

(** C1. With backend [ninja], the command line handed to the child process
    is exactly [runner, "-C", builddir.as_posix()], followed by
    ["-j", str(jobs)] if and only if [jobs > 0], followed by
    ["-l", str(load_average)] if and only if [load_average > 0], followed by
    the bare token [clean] if and only if the clean flag is set; for
    [jobs <= 0] no [-j], and for [load_average <= 0] no [-l], occurs among
    the arguments after the build directory. *)
Theorem run_ninja_argument_vector
        (w : World) (options : Namespace) t0 t1 (runner : string) :
  node w (builddir options) = Directory ->
  get_backend_from_introspect w (builddir options) = (t0, inr (JStr "ninja")) ->
  find_runner w = (t1, inr runner) ->
  let j_flag := if 0 <? jobs options
                then ["-j"; str_int (jobs options)] else [] in
  let l_flag := if 0 <? load_average options
                then ["-l"; str_int (load_average options)] else [] in
  let c_flag := if clean options then ["clean"] else [] in
  spawned (fst (run w options))
  = [([runner; "-C"; pathlib.as_posix (os_flavour w) (builddir options)]
        ++ j_flag ++ l_flag ++ c_flag)%list]
  /\ (jobs options <= 0 -> ~ In "-j" (j_flag ++ l_flag ++ c_flag)%list)
  /\ (load_average options <= 0 -> ~ In "-l" (j_flag ++ l_flag ++ c_flag)%list).
Proof.
  intros Hdir Hb Hr j_flag l_flag c_flag.
  assert (Hj : forall n, str_int n <> "-j")
    by (intros n; apply str_int_not_flag; reflexivity).
  assert (Hl : forall n, str_int n <> "-l")
    by (intros n; apply str_int_not_flag; reflexivity).
  split; [| split].
  - rewrite (run_spawns w options _ _ Hdir (backend_cmd_ninja w options _ _ _ Hb Hr)).
    pose proof (get_backend_no_popen w (builddir options)) as H0.
    pose proof (find_runner_trace_no_popen w) as H1.
    rewrite Hb in H0. rewrite Hr in H1. simpl in H0, H1. simpl fst.
    rewrite !spawned_app, H0, H1. simpl.
    unfold ninja_cmd, extend, append, j_flag, l_flag, c_flag.
    destruct (0 <? jobs options), (0 <? load_average options), (clean options);
      reflexivity.
  - intros Hle. apply Z.ltb_ge in Hle. unfold j_flag, l_flag, c_flag.
    rewrite Hle.
    destruct (0 <? load_average options), (clean options); simpl;
      intros H; repeat (destruct H as [H | H]); try discriminate H; try exact H;
      exact (Hj _ H).
  - intros Hle. apply Z.ltb_ge in Hle. unfold j_flag, l_flag, c_flag.
    rewrite Hle.
    destruct (0 <? jobs options), (clean options); simpl;
      intros H; repeat (destruct H as [H | H]); try discriminate H; try exact H;
      exact (Hl _ H).
Qed.

Lemma run_ninja_argument_vector_witness :
  spawned (fst (run (Demo.world (Loaded (Demo.record "ninja")) None
                                ["ninja"; "samu"] [] (Some 0))
                    (Demo.options 4 0 true)))
  = [["ninja"; "-C"; "build"; "-j"; "4"; "clean"]].
Proof.
  apply (run_ninja_argument_vector
           (Demo.world (Loaded (Demo.record "ninja")) None
                       ["ninja"; "samu"] [] (Some 0))
           (Demo.options 4 0 true)
           [EvOpen Demo.intro]
           [EvWhich "ninja"; EvLog ["Found runner:"; "ninja"]]
           "ninja").
  - reflexivity.
  - reflexivity.
  - reflexivity.
Defined.

(** C2, at the input where the code departs from the claim: [NINJA] is set
    to the empty string and neither [ninja] nor [samu] is on the search
    path.  Both probes are made and fail, yet no error is raised: the empty
    string is announced as the runner and spawned. *)
Example run_empty_override_no_runner :
  run (Demo.world (Loaded (Demo.record "ninja")) (Some "") [] [] None)
      (Demo.options 0 0 false)
  = ([EvOpen Demo.intro; EvWhich "ninja"; EvWhich "samu";
      EvLog ["Found runner:"; ""]; EvPopen [""; "-C"; "build"]],
     inl OSError).
Proof. reflexivity. Qed.

(** Where the override is unset the resolution is as documented: [ninja],
    else [samu], else the error. *)
Lemma find_runner_unset (w : World) :
  environ w "NINJA" = None ->
  find_runner w
  = if truthy (which w "ninja") then
      ([EvWhich "ninja"; EvLog ["Found runner:"; "ninja"]], inr "ninja")
    else if truthy (which w "samu") then
      ([EvWhich "ninja"; EvWhich "samu"; EvLog ["Found runner:"; "samu"]],
       inr "samu")
    else
      ([EvWhich "ninja"; EvWhich "samu"],
       inl (MesonException "Cannot find either ninja or samu.")).
Proof.
  intros Henv. unfold find_runner, shutil_which, mlog_log, emit.
  rewrite Henv. simpl.
  destruct (truthy (which w "ninja")); simpl; [reflexivity |].
  destruct (truthy (which w "samu")); reflexivity.
Qed.

(** The claim of C3 as the spec words it does not hold: with the clean flag
    set, the vector ends with the clean target, not with the parallelism
    flag. *)
Lemma vs_vector_last_is_not_parallelism_flag :
  ~ (forall (w : World) (options : Namespace) t0 s sln cmd,
        node w (builddir options) = Directory ->
        get_backend_from_introspect w (builddir options) = (t0, inr (JStr s)) ->
        String.prefix "vs" s = true ->
        glob w (builddir options) "*.sln" = [sln] ->
        spawned (fst (run w options)) = [cmd] ->
        (jobs options <= 0 -> last cmd "" = "-m")
        /\ (0 < jobs options ->
            last cmd "" = ("-m" ++ str_int (jobs options))%string)).
Proof.
  intros H.
  specialize (H (Demo.world (Loaded (Demo.record "vs2019")) None [] [Demo.sln]
                            (Some 0))
                (Demo.options 0 0 true)
                [EvOpen Demo.intro] "vs2019" Demo.sln
                ["msbuild"; "/home/build/demo.sln"; "-m"; "/t:Clean"]
                eq_refl eq_refl eq_refl eq_refl eq_refl).
  destruct H as [H _]. specialize (H ltac:(simpl; lia)). discriminate H.
Qed.

(** C3, amended. On a [vs] backend the parallelism flag is the third
    argument, right after the solution path: the bare [-m] if [jobs <= 0],
    and [-m] directly followed by the decimal form of [jobs], with no space
    in it, if [jobs > 0].  It is the last argument when the clean flag is
    unset; when it is set, the clean target [/t:Clean] follows it. *)
Theorem run_vs_parallelism_flag
        (w : World) (options : Namespace) t0 (s : string) (sln : Path) :
  node w (builddir options) = Directory ->
  get_backend_from_introspect w (builddir options) = (t0, inr (JStr s)) ->
  String.prefix "vs" s = true ->
  glob w (builddir options) "*.sln" = [sln] ->
  let m_flag := if 0 <? jobs options
                then ("-m" ++ str_int (jobs options))%string else "-m" in
  spawned (fst (run w options))
  = [(["msbuild"; pathlib.str (os_flavour w) (resolve w sln); m_flag]
        ++ (if clean options then ["/t:Clean"] else []))%list]
  /\ all_chars (fun c => negb (Ascii.eqb c " ")) m_flag = true.
Proof.
  intros Hdir Hb Hvs Hglob m_flag. split.
  - pose proof (backend_cmd_vs w options t0 s Hb Hvs) as Hcmd.
    rewrite (vs_cmd_one_solution w options sln Hglob) in Hcmd. simpl in Hcmd.
    rewrite (run_spawns w options _ _ Hdir Hcmd). simpl fst.
    pose proof (get_backend_no_popen w (builddir options)) as H0.
    rewrite Hb in H0. simpl in H0.
    rewrite !spawned_app, H0. unfold vs_warning.
    destruct (load_average options =? 0); reflexivity.
  - unfold m_flag. destruct (0 <? jobs options); [| reflexivity].
    pose proof (all_chars_impl _ _ _ int_char_not_space
                  (str_int_chars (jobs options))) as H.
    unfold all_chars in *. simpl. exact H.
Qed.

Lemma run_vs_parallelism_flag_witness :
  spawned (fst (run (Demo.world (Loaded (Demo.record "vs2019")) None []
                                [Demo.sln] (Some 0))
                    (Demo.options 8 0 true)))
  = [["msbuild"; "/home/build/demo.sln"; "-m8"; "/t:Clean"]].
Proof.
  apply (run_vs_parallelism_flag
           (Demo.world (Loaded (Demo.record "vs2019")) None [] [Demo.sln] (Some 0))
           (Demo.options 8 0 true) [EvOpen Demo.intro] "vs2019" Demo.sln).
  - reflexivity.
  - reflexivity.
  - reflexivity.
  - reflexivity.
Defined.

(** C4. Whenever [run] returns an integer, exactly one child process was
    spawned, as the last thing [run] did, and the integer is the exit status
    of that process; and whenever the command line is worked out and the
    child exits with some status, [run] returns that very status. *)
Theorem run_returns_exit_status (w : World) (options : Namespace) :
  (forall t status,
      run w options = (t, inr status) ->
      exists t' cmd,
        backend_cmd w options = (t', inr cmd)
        /\ t = (t' ++ [EvPopen cmd])%list
        /\ spawned t = [cmd]
        /\ spawn w cmd = Some status)
  /\ (forall t' cmd status,
        node w (builddir options) = Directory ->
        backend_cmd w options = (t', inr cmd) ->
        spawn w cmd = Some status ->
        run w options = ((t' ++ [EvPopen cmd])%list, inr status)).
Proof.
  split.
  - intros t status Hrun. unfold run in Hrun.
    destruct (negb (path_exists w (builddir options))); [discriminate |].
    destruct (negb (is_dir w (builddir options))); [discriminate |].
    apply bind_inr_inv in Hrun as (t1 & cmd & t2 & Hcmd & Hp & ->).
    rewrite Popen_safe_eq in Hp. inversion Hp as [[Ht2 Hres]]. subst t2.
    exists t1, cmd. repeat split; auto.
    + pose proof (backend_cmd_no_popen w options) as H0.
      rewrite Hcmd in H0. simpl in H0. rewrite spawned_app, H0. reflexivity.
    + unfold popen_result in Hres. destruct (spawn w cmd); congruence.
  - intros t' cmd status Hdir Hcmd Hs.
    rewrite (run_spawns w options t' cmd Hdir Hcmd).
    unfold popen_result. rewrite Hs. reflexivity.
Qed.

Lemma run_returns_exit_status_witness :
  run (Demo.world (Loaded (Demo.record "ninja")) None ["samu"] [] (Some 1))
      (Demo.options 4 0 false)
  = ([EvOpen Demo.intro; EvWhich "ninja"; EvWhich "samu";
      EvLog ["Found runner:"; "samu"];
      EvPopen ["samu"; "-C"; "build"; "-j"; "4"]], inr 1).
Proof.
  apply (proj2 (run_returns_exit_status
                  (Demo.world (Loaded (Demo.record "ninja")) None ["samu"] []
                              (Some 1))
                  (Demo.options 4 0 false))
               [EvOpen Demo.intro; EvWhich "ninja"; EvWhich "samu";
                EvLog ["Found runner:"; "samu"]]
               ["samu"; "-C"; "build"; "-j"; "4"] 1).
  - reflexivity.
  - reflexivity.
  - reflexivity.
Defined.

(** C6. [run] checks the build directory before anything else: a path that
    does not exist raises one [MesonException], a path that exists and is
    not a directory raises another, with a different message; in both cases
    the trace is empty: no file was opened and no process was spawned. *)
Theorem run_validates_builddir (w : World) (options : Namespace) :
  (node w (builddir options) = NoEntry ->
   run w options
   = ([], inl (MesonException
                 ("Path to builddir "
                    ++ pathlib.str (os_flavour w) (resolve w (builddir options))
                    ++ " does not exist!"))))
  /\ (node w (builddir options) = NotDirectory ->
      run w options
      = ([], inl (MesonException "builddir path should be a directory.")))
  /\ (forall p : string,
         "Path to builddir " ++ p ++ " does not exist!"
         <> "builddir path should be a directory.").
Proof.
  unfold run, path_exists, is_dir. repeat split.
  - intros ->. reflexivity.
  - intros ->. reflexivity.
  - intros p. discriminate.
Qed.

Lemma run_validates_builddir_witness :
  run (Demo.world (Loaded (Demo.record "ninja")) None ["ninja"] [] (Some 0))
      (mkNamespace (pathlib.mkPath "" ["nowhere"]) 0 0 false)
  = ([], inl (MesonException "Path to builddir /home/nowhere does not exist!"))
  /\ run (Demo.world (Loaded (Demo.record "ninja")) None ["ninja"] [] (Some 0))
         (mkNamespace (pathlib.mkPath "" ["README"]) 0 0 false)
     = ([], inl (MesonException "builddir path should be a directory.")).
Proof.
  split.
  - apply (proj1 (run_validates_builddir
       (Demo.world (Loaded (Demo.record "ninja")) None ["ninja"] [] (Some 0))
       (mkNamespace (pathlib.mkPath "" ["nowhere"]) 0 0 false))).
    reflexivity.
  - apply (proj1 (proj2 (run_validates_builddir
       (Demo.world (Loaded (Demo.record "ninja")) None ["ninja"] [] (Some 0))
       (mkNamespace (pathlib.mkPath "" ["README"]) 0 0 false)))).
    reflexivity.
Defined.

(** C7. On a [vs] backend, when exactly one file of the build directory
    matches [*.sln], [msbuild] is spawned with the resolved path of that
    file as its first argument; when none or more than one matches, [run]
    ends in an [AssertionError] right after the scan, and nothing is
    spawned. *)
Theorem run_vs_solution (w : World) (options : Namespace) t0 (s : string) :
  node w (builddir options) = Directory ->
  get_backend_from_introspect w (builddir options) = (t0, inr (JStr s)) ->
  String.prefix "vs" s = true ->
  (forall sln,
      glob w (builddir options) "*.sln" = [sln] ->
      exists rest,
        spawned (fst (run w options))
        = ["msbuild" :: pathlib.str (os_flavour w) (resolve w sln) :: rest]
        /\ snd (run w options)
           = popen_result w
               ("msbuild" :: pathlib.str (os_flavour w) (resolve w sln) :: rest))
  /\ (length (glob w (builddir options) "*.sln") <> 1%nat ->
      run w options
      = ((t0 ++ [EvGlob (builddir options) "*.sln"])%list,
         inl (AssertionError "More than one solution in a project?"))
      /\ spawned (fst (run w options)) = []).
Proof.
  intros Hdir Hb Hvs.
  pose proof (backend_cmd_vs w options t0 s Hb Hvs) as Hcmd.
  pose proof (get_backend_no_popen w (builddir options)) as H0.
  rewrite Hb in H0. simpl in H0.
  split.
  - intros sln Hglob.
    rewrite (vs_cmd_one_solution w options sln Hglob) in Hcmd. simpl in Hcmd.
    rewrite (run_spawns w options _ _ Hdir Hcmd). simpl fst. simpl snd.
    eexists. split; [| reflexivity].
    rewrite !spawned_app, H0. unfold vs_warning.
    destruct (load_average options =? 0); reflexivity.
  - intros Hlen.
    rewrite (vs_cmd_not_one_solution w options Hlen) in Hcmd. simpl in Hcmd.
    rewrite (run_fails w options _ _ Hdir Hcmd). split; [reflexivity |].
    simpl. rewrite spawned_app, H0. reflexivity.
Qed.

Lemma run_vs_solution_witness :
  run (Demo.world (Loaded (Demo.record "vs2019")) None [] [] (Some 0))
      (Demo.options 0 0 false)
  = ([EvOpen Demo.intro; EvGlob Demo.bdir "*.sln"],
     inl (AssertionError "More than one solution in a project?"))
  /\ spawned (fst (run (Demo.world (Loaded (Demo.record "vs2019")) None []
                                   [Demo.sln; Demo.bdir // "other.sln"] (Some 0))
                       (Demo.options 0 0 false)))
     = []
  /\ exists rest,
       spawned (fst (run (Demo.world (Loaded (Demo.record "vs2019")) None []
                                     [Demo.sln] (Some 0))
                         (Demo.options 0 0 false)))
       = ["msbuild" :: "/home/build/demo.sln" :: rest]
       /\ snd (run (Demo.world (Loaded (Demo.record "vs2019")) None []
                               [Demo.sln] (Some 0))
                   (Demo.options 0 0 false))
          = inr 0.
Proof.
  split; [| split].
  - apply (proj2 (run_vs_solution
       (Demo.world (Loaded (Demo.record "vs2019")) None [] [] (Some 0))
       (Demo.options 0 0 false) [EvOpen Demo.intro] "vs2019"
       eq_refl eq_refl eq_refl)).
    simpl. lia.
  - apply (proj2 (run_vs_solution
       (Demo.world (Loaded (Demo.record "vs2019")) None []
                   [Demo.sln; Demo.bdir // "other.sln"] (Some 0))
       (Demo.options 0 0 false) [EvOpen Demo.intro] "vs2019"
       eq_refl eq_refl eq_refl)).
    simpl. lia.
  - apply (proj1 (run_vs_solution
       (Demo.world (Loaded (Demo.record "vs2019")) None [] [Demo.sln] (Some 0))
       (Demo.options 0 0 false) [EvOpen Demo.intro] "vs2019"
       eq_refl eq_refl eq_refl) Demo.sln).
    reflexivity.
Defined.

(** C8. For a backend that is neither [ninja] nor starts with [vs], [run]
    raises a [MesonException] that names the backend and tells the user to
    use the generated project files directly, and nothing is spawned. *)
Theorem run_unsupported_backend
        (w : World) (options : Namespace) t0 (s : string) :
  node w (builddir options) = Directory ->
  get_backend_from_introspect w (builddir options) = (t0, inr (JStr s)) ->
  s <> "ninja" ->
  String.prefix "vs" s = false ->
  run w options
  = (t0, inl (MesonException
                ("Backend `" ++ s
                   ++ "` is not yet supported by `compile`. Use generated project files directly instead.")))
  /\ spawned (fst (run w options)) = [].
Proof.
  intros Hdir Hb Hninja Hvs.
  rewrite (run_fails w options _ _ Hdir
             (backend_cmd_other w options t0 s Hb Hninja Hvs)).
  split; [reflexivity |].
  pose proof (get_backend_no_popen w (builddir options)) as H0.
  rewrite Hb in H0. exact H0.
Qed.

Lemma run_unsupported_backend_witness :
  run (Demo.world (Loaded (Demo.record "xcode")) None ["ninja"] [] (Some 0))
      (Demo.options 2 0 false)
  = ([EvOpen Demo.intro],
     inl (MesonException
            "Backend `xcode` is not yet supported by `compile`. Use generated project files directly instead.")).
Proof.
  apply (run_unsupported_backend
           (Demo.world (Loaded (Demo.record "xcode")) None ["ninja"] [] (Some 0))
           (Demo.options 2 0 false) [EvOpen Demo.intro] "xcode").
  - reflexivity.
  - reflexivity.
  - discriminate.
  - reflexivity.
Defined.

(** C9. On a [vs] backend with a nonzero load average, the warning that
    msbuild has no load-average switch is emitted, [run] goes on to spawn
    the build tool and yields what the child yields, and the command line is
    the same whatever the load average is. *)
Theorem run_vs_load_average_ignored
        (w : World) (options : Namespace) t0 (s : string) (sln : Path) :
  node w (builddir options) = Directory ->
  get_backend_from_introspect w (builddir options) = (t0, inr (JStr s)) ->
  String.prefix "vs" s = true ->
  glob w (builddir options) "*.sln" = [sln] ->
  load_average options <> 0 ->
  In (EvWarning "Msbuild does not have a load-average switch, ignoring.")
     (fst (run w options))
  /\ exists cmd,
       spawned (fst (run w options)) = [cmd]
       /\ snd (run w options) = popen_result w cmd
       /\ forall l, spawned (fst (run w (with_load_average options l))) = [cmd].
Proof.
  intros Hdir Hb Hvs Hglob Hla.
  pose proof (get_backend_no_popen w (builddir options)) as H0.
  rewrite Hb in H0. simpl in H0.
  assert (Hrun : forall o,
    builddir o = builddir options ->
    run w o
    = ((t0 ++ (EvGlob (builddir options) "*.sln" :: vs_warning o)
           ++ [EvPopen
                 (["msbuild"; pathlib.str (os_flavour w) (resolve w sln);
                   if 0 <? jobs o
                   then ("-m" ++ str_int (jobs o))%string else "-m"]
                  ++ (if clean o then ["/t:Clean"] else []))])%list,
       popen_result w
         (["msbuild"; pathlib.str (os_flavour w) (resolve w sln);
           if 0 <? jobs o then ("-m" ++ str_int (jobs o))%string else "-m"]
          ++ (if clean o then ["/t:Clean"] else []))%list)).
  { intros o Ho.
    assert (Hdir' : node w (builddir o) = Directory) by (rewrite Ho; exact Hdir).
    assert (Hb' : get_backend_from_introspect w (builddir o) = (t0, inr (JStr s)))
      by (rewrite Ho; exact Hb).
    assert (Hglob' : glob w (builddir o) "*.sln" = [sln])
      by (rewrite Ho; exact Hglob).
    pose proof (backend_cmd_vs w o t0 s Hb' Hvs) as Hcmd.
    rewrite (vs_cmd_one_solution w o sln Hglob') in Hcmd. simpl in Hcmd.
    rewrite (run_spawns w o _ _ Hdir' Hcmd), Ho, <- app_assoc. reflexivity. }
  split.
  - rewrite (Hrun options eq_refl). simpl fst.
    apply in_or_app. right. right. apply in_or_app. left.
    unfold vs_warning. apply Z.eqb_neq in Hla. rewrite Hla.
    left. reflexivity.
  - eexists. split; [| split].
    + rewrite (Hrun options eq_refl). simpl fst.
      rewrite !spawned_app, H0. unfold vs_warning.
      destruct (load_average options =? 0); reflexivity.
    + rewrite (Hrun options eq_refl). reflexivity.
    + intros l. rewrite (Hrun (with_load_average options l) eq_refl).
      simpl fst. rewrite !spawned_app, H0. unfold vs_warning.
      destruct (load_average (with_load_average options l) =? 0); reflexivity.
Qed.

Lemma run_vs_load_average_ignored_witness :
  In (EvWarning "Msbuild does not have a load-average switch, ignoring.")
     (fst (run (Demo.world (Loaded (Demo.record "vs2017")) None [] [Demo.sln]
                           (Some 0))
               (Demo.options 2 3 false))).
Proof.
  apply (run_vs_load_average_ignored
           (Demo.world (Loaded (Demo.record "vs2017")) None [] [Demo.sln] (Some 0))
           (Demo.options 2 3 false) [EvOpen Demo.intro] "vs2017" Demo.sln).
  - reflexivity.
  - reflexivity.
  - reflexivity.
  - reflexivity.
  - simpl. lia.
Defined.

(** C10. When [NINJA] is set to a non-empty string, that string is the
    runner whatever the search path and the file system hold: the search
    path is never probed, the error about ninja and samu cannot be raised,
    the string is the program of the spawned command line, and a string that
    names no executable only shows when the spawn fails. *)
Theorem run_ninja_override_unchecked
        (w : World) (options : Namespace) t0 (r : string) :
  node w (builddir options) = Directory ->
  get_backend_from_introspect w (builddir options) = (t0, inr (JStr "ninja")) ->
  environ w "NINJA" = Some r ->
  r <> "" ->
  find_runner w = ([EvLog ["Found runner:"; r]], inr r)
  /\ probed (fst (run w options)) = []
  /\ spawned (fst (run w options)) = [ninja_cmd w options r]
  /\ hd "" (ninja_cmd w options r) = r
  /\ snd (run w options) = popen_result w (ninja_cmd w options r)
  /\ snd (run w options)
     <> inl (MesonException "Cannot find either ninja or samu.")
  /\ (spawn w (ninja_cmd w options r) = None ->
      snd (run w options) = inl OSError).
Proof.
  intros Hdir Hb Henv Hne.
  pose proof (find_runner_override w r Henv Hne) as Hr.
  pose proof (run_spawns w options _ _ Hdir
                (backend_cmd_ninja w options _ _ _ Hb Hr)) as Hrun.
  assert (Hp0 : probed t0 = [] /\ spawned t0 = []).
  { pose proof (get_backend_trace w (builddir options)) as Ht.
    rewrite Hb in Ht. simpl in Ht. destruct Ht as [-> | ->]; split; reflexivity. }
  destruct Hp0 as [Hp0 Hs0].
  rewrite Hrun. simpl fst. simpl snd.
  rewrite !probed_app, !spawned_app, Hp0, Hs0.
  repeat split.
  - exact Hr.
  - unfold ninja_cmd, extend, append.
    destruct (0 <? jobs options), (0 <? load_average options), (clean options);
      reflexivity.
  - unfold popen_result. destruct (spawn w _); discriminate.
  - intros Hs. unfold popen_result. rewrite Hs. reflexivity.
Qed.

Lemma run_ninja_override_unchecked_witness :
  probed (fst (run (Demo.world (Loaded (Demo.record "ninja"))
                               (Some "custom-runner") ["ninja"] [] None)
                   (Demo.options 0 0 false)))
  = []
  /\ spawned (fst (run (Demo.world (Loaded (Demo.record "ninja"))
                                   (Some "custom-runner") ["ninja"] [] None)
                       (Demo.options 0 0 false)))
     = [["custom-runner"; "-C"; "build"]]
  /\ snd (run (Demo.world (Loaded (Demo.record "ninja"))
                          (Some "custom-runner") ["ninja"] [] None)
              (Demo.options 0 0 false))
     = inl OSError.
Proof.
  pose proof (run_ninja_override_unchecked
                (Demo.world (Loaded (Demo.record "ninja")) (Some "custom-runner")
                            ["ninja"] [] None)
                (Demo.options 0 0 false) [EvOpen Demo.intro] "custom-runner"
                eq_refl eq_refl eq_refl ltac:(discriminate)) as H.
  destruct H as (_ & Hp & Hs & _ & _ & _ & H).
  split; [exact Hp | split; [exact Hs |]].
  apply H. reflexivity.
Defined.

(** * Further properties of the module *)

(** ** The configuration reader *)

(** X1. When reading the backend fails inside an existing build directory,
    [run] ends with that very exception, and all it has done by then is, at
    most, open the introspection file: no probe, no scan, no log, no
    spawn. *)
Theorem run_reader_failure (w : World) (options : Namespace) t (e : exn) :
  node w (builddir options) = Directory ->
  get_backend_from_introspect w (builddir options) = (t, inl e) ->
  run w options = (t, inl e)
  /\ (t = []
      \/ t = [EvOpen (builddir options // "meson-info"
                                       // "intro-buildoptions.json")]).
Proof.
  intros Hdir Hb. split.
  - apply (run_fails w options t e Hdir).
    unfold backend_cmd. apply bind_error, Hb.
  - pose proof (get_backend_trace w (builddir options)) as Ht.
    rewrite Hb in Ht. exact Ht.
Qed.

Lemma run_reader_failure_witness :
  run (Demo.world LoadDecodeError None ["ninja"] [] (Some 0))
      (Demo.options 0 0 false)
  = ([EvOpen Demo.intro], inl JSONDecodeError).
Proof.
  apply (run_reader_failure
           (Demo.world LoadDecodeError None ["ninja"] [] (Some 0))
           (Demo.options 0 0 false) [EvOpen Demo.intro] JSONDecodeError).
  - reflexivity.
  - reflexivity.
Defined.

(** X2. A document that is not a list never yields a backend.  The empty
    dict and the empty string are iterated to their end and give the
    [MesonException] about the missing [backend] option; every other
    non-list document gives a [TypeError], be it a non-empty dict (its keys
    are strings, which cannot be indexed by ['name']), a non-empty string,
    or a value that cannot be iterated at all. *)
Theorem get_backend_non_list_document (w : World) (bdir : Path) (doc : json) :
  let path_to_intro := bdir // "meson-info" // "intro-buildoptions.json" in
  node w path_to_intro <> NoEntry ->
  load_json w path_to_intro = Loaded doc ->
  (forall items, doc <> JList items) ->
  get_backend_from_introspect w bdir
  = ([EvOpen path_to_intro],
     inl (match doc with
          | JDict [] | JStr EmptyString =>
              MesonException
                "`intro-buildoptions.json` is missing `backend` option!"
          | _ => TypeError
          end)).
Proof.
  intros path_to_intro Hex Hload Hnl.
  assert (Hname : pathlib.name path_to_intro = "intro-buildoptions.json")
    by apply name_joinpath.
  unfold get_backend_from_introspect. fold path_to_intro.
  rewrite Hname. unfold path_exists, json_load_file.
  destruct (node w path_to_intro); [contradiction | |];
    rewrite Hload;
    (destruct doc as [| b | n | l | s | items | items];
     [reflexivity | reflexivity | reflexivity | reflexivity
     | destruct s; reflexivity
     | exfalso; exact (Hnl items eq_refl)
     | destruct items as [| [k v] rest]; reflexivity]).
Qed.

Lemma get_backend_non_list_document_witness :
  get_backend_from_introspect
    (Demo.world (Loaded (JDict [("backend", JStr "ninja")])) None [] [] None)
    Demo.bdir
  = ([EvOpen Demo.intro], inl TypeError)
  /\ get_backend_from_introspect
       (Demo.world (Loaded (JDict [])) None [] [] None) Demo.bdir
     = ([EvOpen Demo.intro],
        inl (MesonException
               "`intro-buildoptions.json` is missing `backend` option!")).
Proof.
  split.
  - apply (get_backend_non_list_document
             (Demo.world (Loaded (JDict [("backend", JStr "ninja")]))
                         None [] [] None)
             Demo.bdir (JDict [("backend", JStr "ninja")])).
    + discriminate.
    + reflexivity.
    + discriminate.
  - apply (get_backend_non_list_document
             (Demo.world (Loaded (JDict [])) None [] [] None)
             Demo.bdir (JDict [])).
    + discriminate.
    + reflexivity.
    + discriminate.
Defined.

(** X3. The scan stops at the first entry it cannot use.  After any number
    of descriptors of other options: an entry that is not a dict raises
    [TypeError]; a dict without a [name] raises [KeyError('name')]; a dict
    named [backend] without a [value] raises [KeyError('value')].  Entries
    after it are not looked at. *)
Theorem get_backend_malformed_descriptor
        (w : World) (bdir : Path) (before after : list json) (d : json) :
  let path_to_intro := bdir // "meson-info" // "intro-buildoptions.json" in
  node w path_to_intro <> NoEntry ->
  load_json w path_to_intro = Loaded (JList (before ++ d :: after)) ->
  forallb other_descriptor before = true ->
  ((forall items, d <> JDict items) ->
   get_backend_from_introspect w bdir = ([EvOpen path_to_intro], inl TypeError))
  /\ (forall items, d = JDict items -> dict_get items "name" = None ->
      get_backend_from_introspect w bdir
      = ([EvOpen path_to_intro], inl (KeyError "name")))
  /\ (named_backend d = true -> option_value d = None ->
      get_backend_from_introspect w bdir
      = ([EvOpen path_to_intro], inl (KeyError "value"))).
Proof.
  intros path_to_intro Hex Hload Hall.
  assert (Hget : forall e,
    scan_options (d :: after) = ([], inl e) ->
    get_backend_from_introspect w bdir = ([EvOpen path_to_intro], inl e)).
  { intros e Hscan. unfold get_backend_from_introspect. fold path_to_intro.
    unfold path_exists, json_load_file.
    destruct (node w path_to_intro); [contradiction | |];
      rewrite Hload; simpl;
      rewrite (scan_options_skip before (d :: after) Hall), Hscan;
      reflexivity. }
  split; [| split].
  - intros Hnd. apply Hget.
    destruct d; try reflexivity. exfalso. exact (Hnd items eq_refl).
  - intros items -> Hn. apply Hget. simpl. rewrite Hn. reflexivity.
  - intros Hb Hv. apply Hget. unfold named_backend in Hb.
    destruct d; try discriminate. simpl in Hb, Hv. simpl.
    destruct (dict_get items "name") as [n |]; [| discriminate].
    rewrite bind_ret, Hb. unfold py_getitem. rewrite Hv. reflexivity.
Qed.

Lemma get_backend_malformed_descriptor_witness :
  get_backend_from_introspect
    (Demo.world (Loaded (JList [Demo.descriptor "buildtype" "debug";
                                JDict [("name", JStr "backend")];
                                Demo.descriptor "backend" "ninja"]))
                None [] [] None)
    Demo.bdir
  = ([EvOpen Demo.intro], inl (KeyError "value")).
Proof.
  apply (get_backend_malformed_descriptor
           (Demo.world (Loaded (JList [Demo.descriptor "buildtype" "debug";
                                       JDict [("name", JStr "backend")];
                                       Demo.descriptor "backend" "ninja"]))
                       None [] [] None)
           Demo.bdir
           [Demo.descriptor "buildtype" "debug"]
           [Demo.descriptor "backend" "ninja"]
           (JDict [("name", JStr "backend")])).
  - discriminate.
  - reflexivity.
  - reflexivity.
  - reflexivity.
  - reflexivity.
Defined.

(** X4. The reader looks at nothing but the introspection file: on two
    machines that agree on whether that one path exists and on what it
    parses to, it behaves the same, whatever else differs (other files, the
    environment, the search path, the child processes). *)
Theorem get_backend_reads_only_intro_file (w w' : World) (bdir : Path) :
  let path_to_intro := bdir // "meson-info" // "intro-buildoptions.json" in
  node w path_to_intro = node w' path_to_intro ->
  load_json w path_to_intro = load_json w' path_to_intro ->
  get_backend_from_introspect w bdir = get_backend_from_introspect w' bdir.
Proof.
  intros path_to_intro Hnode Hload.
  unfold get_backend_from_introspect, path_exists, json_load_file.
  fold path_to_intro. rewrite Hnode, Hload. reflexivity.
Qed.

Lemma get_backend_reads_only_intro_file_witness :
  get_backend_from_introspect
    (Demo.world (Loaded (Demo.record "ninja")) None [] [] None) Demo.bdir
  = get_backend_from_introspect
      (Demo.world (Loaded (Demo.record "ninja")) (Some "samu") ["ninja"]
                  [Demo.sln] (Some 3))
      Demo.bdir.
Proof.
  apply (get_backend_reads_only_intro_file
           (Demo.world (Loaded (Demo.record "ninja")) None [] [] None)
           (Demo.world (Loaded (Demo.record "ninja")) (Some "samu") ["ninja"]
                       [Demo.sln] (Some 3))
           Demo.bdir).
  - reflexivity.
  - reflexivity.
Defined.

(** ** The runner of the ninja backend *)

(** X5. When [NINJA] is unset or empty the search path decides: [ninja] is
    taken when it is found, and then [samu] is not even probed; [samu] is
    taken only when [ninja] is not found.  The runner is the bare name, not
    the path that [shutil.which] returned. *)
Theorem find_runner_search_order (w : World) :
  truthy (environ w "NINJA") = false ->
  (truthy (which w "ninja") = true ->
   find_runner w
   = ([EvWhich "ninja"; EvLog ["Found runner:"; "ninja"]], inr "ninja"))
  /\ (truthy (which w "ninja") = false ->
      truthy (which w "samu") = true ->
      find_runner w
      = ([EvWhich "ninja"; EvWhich "samu"; EvLog ["Found runner:"; "samu"]],
         inr "samu")).
Proof.
  intros Henv. unfold find_runner, shutil_which, mlog_log, emit.
  rewrite Henv. simpl. split.
  - intros ->. reflexivity.
  - intros -> ->. reflexivity.
Qed.

Lemma find_runner_search_order_witness :
  find_runner (Demo.world (Loaded (Demo.record "ninja")) (Some "")
                          ["samu"; "ninja"] [] None)
  = ([EvWhich "ninja"; EvLog ["Found runner:"; "ninja"]], inr "ninja")
  /\ find_runner (Demo.world (Loaded (Demo.record "ninja")) None
                             ["samu"] [] None)
     = ([EvWhich "ninja"; EvWhich "samu"; EvLog ["Found runner:"; "samu"]],
        inr "samu").
Proof.
  split.
  - apply (proj1 (find_runner_search_order
                    (Demo.world (Loaded (Demo.record "ninja")) (Some "")
                                ["samu"; "ninja"] [] None)
                    eq_refl)).
    reflexivity.
  - apply (proj2 (find_runner_search_order
                    (Demo.world (Loaded (Demo.record "ninja")) None
                                ["samu"] [] None)
                    eq_refl)).
    + reflexivity.
    + reflexivity.
Defined.

(** X6. The runner resolution raises exactly when [NINJA] is not in the
    environment at all and neither [ninja] nor [samu] is found, and what it
    raises then is the [MesonException] about ninja and samu. *)
Theorem find_runner_fails_iff (w : World) :
  (forall t e,
      find_runner w = (t, inl e) ->
      e = MesonException "Cannot find either ninja or samu."
      /\ t = [EvWhich "ninja"; EvWhich "samu"]
      /\ environ w "NINJA" = None
      /\ truthy (which w "ninja") = false
      /\ truthy (which w "samu") = false)
  /\ (environ w "NINJA" = None ->
      truthy (which w "ninja") = false ->
      truthy (which w "samu") = false ->
      find_runner w
      = ([EvWhich "ninja"; EvWhich "samu"],
         inl (MesonException "Cannot find either ninja or samu."))).
Proof.
  split.
  - intros t e. unfold find_runner, shutil_which, mlog_log, emit.
    destruct (environ w "NINJA") as [r |]; simpl.
    + destruct (String.eqb r ""); simpl; [| discriminate].
      destruct (truthy (which w "ninja")); simpl; [discriminate |].
      destruct (truthy (which w "samu")); simpl; discriminate.
    + destruct (truthy (which w "ninja")); simpl; [discriminate |].
      destruct (truthy (which w "samu")); simpl; [discriminate |].
      intros H. inversion H. auto.
  - intros Henv Hn Hs. rewrite (find_runner_unset w Henv), Hn, Hs.
    reflexivity.
Qed.

Lemma find_runner_fails_iff_witness :
  find_runner (Demo.world (Loaded (Demo.record "ninja")) None ["make"] [] None)
  = ([EvWhich "ninja"; EvWhich "samu"],
     inl (MesonException "Cannot find either ninja or samu.")).
Proof.
  apply (proj2 (find_runner_fails_iff
                  (Demo.world (Loaded (Demo.record "ninja")) None ["make"] []
                              None))).
  - reflexivity.
  - reflexivity.
  - reflexivity.
Defined.

(** X7. A runner that is returned is the value of [NINJA], or [ninja], or
    [samu], and the last thing the resolution did is to log it. *)
Theorem find_runner_success_logged (w : World) t (r : string) :
  find_runner w = (t, inr r) ->
  (environ w "NINJA" = Some r \/ r = "ninja" \/ r = "samu")
  /\ exists t', t = (t' ++ [EvLog ["Found runner:"; r]])%list.
Proof.
  unfold find_runner, shutil_which, mlog_log, emit.
  destruct (environ w "NINJA") as [r0 |]; simpl.
  - destruct (String.eqb r0 ""); simpl.
    + destruct (truthy (which w "ninja")); simpl.
      * intros H; inversion H; subst. split; [auto |].
        exists [EvWhich "ninja"]. reflexivity.
      * destruct (truthy (which w "samu")); simpl;
          intros H; inversion H; subst; (split; [auto |]);
          exists [EvWhich "ninja"; EvWhich "samu"]; reflexivity.
    + intros H; inversion H; subst. split; [auto |].
      exists []. reflexivity.
  - destruct (truthy (which w "ninja")); simpl.
    + intros H; inversion H; subst. split; [auto |].
      exists [EvWhich "ninja"]. reflexivity.
    + destruct (truthy (which w "samu")); simpl; [| discriminate].
      intros H; inversion H; subst. split; [auto |].
      exists [EvWhich "ninja"; EvWhich "samu"]. reflexivity.
Qed.

Lemma find_runner_success_logged_witness :
  (environ (Demo.world (Loaded (Demo.record "ninja")) None ["samu"] [] None)
           "NINJA" = Some "samu"
   \/ "samu" = "ninja" \/ "samu" = "samu")
  /\ exists t',
       [EvWhich "ninja"; EvWhich "samu"; EvLog ["Found runner:"; "samu"]]
       = (t' ++ [EvLog ["Found runner:"; "samu"]])%list.
Proof.
  apply (find_runner_success_logged
           (Demo.world (Loaded (Demo.record "ninja")) None ["samu"] [] None)).
  reflexivity.
Defined.

(** X8. With backend [ninja], [NINJA] unset and neither [ninja] nor [samu]
    on the search path, [run] raises the [MesonException] about ninja and
    samu right after the two probes, and nothing is spawned. *)
Theorem run_ninja_no_runner (w : World) (options : Namespace) t0 :
  node w (builddir options) = Directory ->
  get_backend_from_introspect w (builddir options) = (t0, inr (JStr "ninja")) ->
  environ w "NINJA" = None ->
  truthy (which w "ninja") = false ->
  truthy (which w "samu") = false ->
  run w options
  = ((t0 ++ [EvWhich "ninja"; EvWhich "samu"])%list,
     inl (MesonException "Cannot find either ninja or samu."))
  /\ spawned (fst (run w options)) = [].
Proof.
  intros Hdir Hb Henv Hn Hs.
  assert (Hr : find_runner w
               = ([EvWhich "ninja"; EvWhich "samu"],
                  inl (MesonException "Cannot find either ninja or samu.")))
    by (rewrite (find_runner_unset w Henv), Hn, Hs; reflexivity).
  assert (Hcmd : backend_cmd w options
                 = ((t0 ++ [EvWhich "ninja"; EvWhich "samu"])%list,
                    inl (MesonException "Cannot find either ninja or samu."))).
  { unfold backend_cmd. rewrite (bind_value _ _ _ _ Hb). cbn [py_eq_str].
    change (String.eqb "ninja" "ninja") with true. cbv iota.
    rewrite (bind_error _ _ _ _ Hr). reflexivity. }
  rewrite (run_fails w options _ _ Hdir Hcmd). split; [reflexivity |].
  pose proof (get_backend_no_popen w (builddir options)) as H0.
  rewrite Hb in H0. simpl in H0. simpl. rewrite spawned_app, H0. reflexivity.
Qed.

Lemma run_ninja_no_runner_witness :
  run (Demo.world (Loaded (Demo.record "ninja")) None ["make"] [] (Some 0))
      (Demo.options 4 0 false)
  = ([EvOpen Demo.intro; EvWhich "ninja"; EvWhich "samu"],
     inl (MesonException "Cannot find either ninja or samu.")).
Proof.
  apply (run_ninja_no_runner
           (Demo.world (Loaded (Demo.record "ninja")) None ["make"] [] (Some 0))
           (Demo.options 4 0 false) [EvOpen Demo.intro]).
  - reflexivity.
  - reflexivity.
  - reflexivity.
  - reflexivity.
  - reflexivity.
Defined.

(** ** run as a whole *)

(** X9. Whatever the machine and the request, [run] either raises before
    any process is spawned, or spawns exactly one process as the last thing
    it does and yields what that process yields.  It never spawns twice and
    never does anything after the spawn. *)
Theorem run_spawns_at_most_once (w : World) (options : Namespace) :
  (exists e, snd (run w options) = inl e
             /\ spawned (fst (run w options)) = [])
  \/ (exists t cmd,
        fst (run w options) = (t ++ [EvPopen cmd])%list
        /\ spawned t = []
        /\ snd (run w options) = popen_result w cmd).
Proof.
  unfold run.
  destruct (negb (path_exists w (builddir options)));
    [left; eexists; split; reflexivity |].
  destruct (negb (is_dir w (builddir options)));
    [left; eexists; split; reflexivity |].
  pose proof (backend_cmd_no_popen w options) as H0.
  destruct (backend_cmd w options) as [t [e | cmd]] eqn:Hcmd; simpl in H0.
  - left. exists e. simpl. auto.
  - right. exists t, cmd.
    rewrite (bind_value _ _ t cmd eq_refl), Popen_safe_eq. simpl. auto.
Qed.

(** X10. A [backend] option whose value is not a string (a number, a bool,
    null, a list, a dict) makes [run] end in [AttributeError]: it is neither
    taken for a backend nor reported as an unsupported one, and nothing is
    spawned. *)
Theorem run_non_string_backend
        (w : World) (options : Namespace) t0 (backend : json) :
  node w (builddir options) = Directory ->
  get_backend_from_introspect w (builddir options) = (t0, inr backend) ->
  (forall s, backend <> JStr s) ->
  run w options = (t0, inl AttributeError)
  /\ spawned (fst (run w options)) = [].
Proof.
  intros Hdir Hb Hns.
  assert (Hcmd : backend_cmd w options = (t0, inl AttributeError)).
  { unfold backend_cmd. rewrite (bind_value _ _ _ _ Hb).
    destruct backend; simpl; rewrite ?app_nil_r; try reflexivity.
    exfalso. exact (Hns s eq_refl). }
  rewrite (run_fails w options _ _ Hdir Hcmd). split; [reflexivity |].
  pose proof (get_backend_no_popen w (builddir options)) as H0.
  rewrite Hb in H0. exact H0.
Qed.

Lemma run_non_string_backend_witness :
  run (Demo.world (Loaded (JList [JDict [("name", JStr "backend");
                                         ("value", JInt 7)]]))
                  None ["ninja"] [] (Some 0))
      (Demo.options 0 0 false)
  = ([EvOpen Demo.intro], inl AttributeError).
Proof.
  apply (run_non_string_backend
           (Demo.world (Loaded (JList [JDict [("name", JStr "backend");
                                              ("value", JInt 7)]]))
                       None ["ninja"] [] (Some 0))
           (Demo.options 0 0 false) [EvOpen Demo.intro] (JInt 7)).
  - reflexivity.
  - reflexivity.
  - discriminate.
Defined.

(** Goes through a trace that is written out, event by event. *)
Ltac each_event_allowed :=
  repeat first [apply Forall_nil | apply Forall_cons]; simpl; eauto.

(** X11. Everything [run] does to its environment, on any machine and for
    any request: the only file it opens is the introspection file of the
    build directory, the only names it looks up on the search path are
    [ninja] and [samu], the only scan is for [*.sln] in the build directory,
    the only log line announces the runner, and the only warning is the one
    about msbuild's missing load-average switch, given only for a nonzero
    load average. *)
Theorem run_footprint (w : World) (options : Namespace) :
  Forall (run_event_allowed options) (fst (run w options)).
Proof.
  assert (Hb : Forall (run_event_allowed options)
                 (fst (get_backend_from_introspect w (builddir options)))).
  { destruct (get_backend_trace w (builddir options)) as [-> | ->];
      each_event_allowed. }
  assert (Hr : Forall (run_event_allowed options) (fst (find_runner w))).
  { unfold find_runner, shutil_which, mlog_log, emit.
    destruct (environ w "NINJA") as [r |]; simpl.
    - destruct (String.eqb r ""); simpl; [| each_event_allowed].
      destruct (truthy (which w "ninja")); simpl; [each_event_allowed |].
      destruct (truthy (which w "samu")); simpl; each_event_allowed.
    - destruct (truthy (which w "ninja")); simpl; [each_event_allowed |].
      destruct (truthy (which w "samu")); simpl; each_event_allowed. }
  assert (Hv : Forall (run_event_allowed options) (fst (vs_cmd w options))).
  { unfold vs_cmd, path_glob, mlog_warning, emit. simpl.
    destruct (Nat.eqb _ 1); simpl; [| each_event_allowed].
    destruct (glob w _ _); simpl; [each_event_allowed |].
    destruct (load_average options =? 0) eqn:Hla; simpl.
    - each_event_allowed.
    - apply Z.eqb_neq in Hla. each_event_allowed. }
  assert (Hc : Forall (run_event_allowed options) (fst (backend_cmd w options))).
  { unfold backend_cmd.
    destruct (get_backend_from_introspect w (builddir options))
      as [t0 [e | backend]]; simpl in *; [exact Hb |].
    destruct (py_eq_str backend "ninja").
    - destruct (find_runner w) as [t1 [e | r]]; simpl in *;
        rewrite ?app_nil_r; apply Forall_app; auto.
    - destruct backend; simpl; rewrite ?app_nil_r; try exact Hb.
      destruct (String.prefix "vs" s); simpl; rewrite ?app_nil_r;
        try exact Hb.
      destruct (vs_cmd w options) as [t1 r]; simpl in *.
      apply Forall_app; auto. }
  unfold run.
  destruct (negb (path_exists w (builddir options))); [constructor |].
  destruct (negb (is_dir w (builddir options))); [constructor |].
  destruct (backend_cmd w options) as [t [e | cmd]]; simpl in *; [exact Hc |].
  rewrite Popen_safe_eq. simpl. apply Forall_app. split; [exact Hc |].
  each_event_allowed.
Qed.

(** ** The Visual Studio backends *)

(** X12. On a [vs] backend the command line has three arguments, or four
    with the clean flag, and it ends with [/t:Clean] exactly when the clean
    flag is set. *)
Theorem run_vs_clean_target
        (w : World) (options : Namespace) t0 (s : string) (sln : Path) :
  node w (builddir options) = Directory ->
  get_backend_from_introspect w (builddir options) = (t0, inr (JStr s)) ->
  String.prefix "vs" s = true ->
  glob w (builddir options) "*.sln" = [sln] ->
  exists cmd,
    spawned (fst (run w options)) = [cmd]
    /\ (last cmd "" = "/t:Clean" <-> clean options = true)
    /\ length cmd = (if clean options then 4 else 3)%nat.
Proof.
  intros Hdir Hb Hvs Hglob.
  pose proof (backend_cmd_vs w options t0 s Hb Hvs) as Hcmd.
  rewrite (vs_cmd_one_solution w options sln Hglob) in Hcmd. simpl in Hcmd.
  rewrite (run_spawns w options _ _ Hdir Hcmd). simpl fst.
  pose proof (get_backend_no_popen w (builddir options)) as H0.
  rewrite Hb in H0. simpl in H0.
  eexists. split; [| split].
  - rewrite !spawned_app, H0. unfold vs_warning.
    destruct (load_average options =? 0); reflexivity.
  - destruct (clean options), (0 <? jobs options); simpl;
      split; intros H; try reflexivity; discriminate H.
  - destruct (clean options); reflexivity.
Qed.

Lemma run_vs_clean_target_witness :
  exists cmd,
    spawned (fst (run (Demo.world (Loaded (Demo.record "vs2019")) None []
                                  [Demo.sln] (Some 0))
                      (Demo.options 3 0 false)))
    = [cmd]
    /\ (last cmd "" = "/t:Clean" <-> false = true)
    /\ length cmd = 3%nat.
Proof.
  apply (run_vs_clean_target
           (Demo.world (Loaded (Demo.record "vs2019")) None [] [Demo.sln] (Some 0))
           (Demo.options 3 0 false) [EvOpen Demo.intro] "vs2019" Demo.sln).
  - reflexivity.
  - reflexivity.
  - reflexivity.
  - reflexivity.
Defined.



(** ** The backend-neutral options *)

(** X14. A job count below 1 is no job count: on every machine and with
    every backend, [run] does for a zero or negative [jobs] exactly what it
    does for [jobs = 0]. *)
Theorem run_nonpositive_jobs (w : World) (options : Namespace) (j : Z) :
  j <= 0 ->
  run w (with_jobs options j) = run w (with_jobs options 0).
Proof.
  intros Hj. apply Z.ltb_ge in Hj.
  unfold run, backend_cmd, ninja_cmd, vs_cmd.
  cbn [jobs load_average clean builddir with_jobs].
  rewrite Hj. reflexivity.
Qed.

Lemma run_nonpositive_jobs_witness :
  run (Demo.world (Loaded (Demo.record "vs2019")) None [] [Demo.sln] (Some 0))
      (with_jobs (Demo.options 5 0 true) (-3))
  = run (Demo.world (Loaded (Demo.record "vs2019")) None [] [Demo.sln] (Some 0))
        (with_jobs (Demo.options 5 0 true) 0).
Proof.
  apply (run_nonpositive_jobs
           (Demo.world (Loaded (Demo.record "vs2019")) None [] [Demo.sln] (Some 0))
           (Demo.options 5 0 true) (-3)).
  lia.
Defined.

Lemma find_runner_no_warning (w : World) (msg : string) :
  ~ In (EvWarning msg) (fst (find_runner w)).
Proof.
  unfold find_runner, shutil_which, mlog_log, emit.
  destruct (environ w "NINJA") as [r |]; simpl.
  - destruct (String.eqb r ""); simpl; [| intuition discriminate].
    destruct (truthy (which w "ninja")); simpl; [intuition discriminate |].
    destruct (truthy (which w "samu")); simpl; intuition discriminate.
  - destruct (truthy (which w "ninja")); simpl; [intuition discriminate |].
    destruct (truthy (which w "samu")); simpl; intuition discriminate.
Qed.

(** X15. With backend [ninja] a negative load average is silently the same
    as none: [run] does exactly what it does for [load_average = 0], and in
    particular gives no warning. *)
Theorem run_ninja_nonpositive_load_average
        (w : World) (options : Namespace) t0 (l : Z) :
  get_backend_from_introspect w (builddir options) = (t0, inr (JStr "ninja")) ->
  l <= 0 ->
  run w (with_load_average options l) = run w (with_load_average options 0)
  /\ forall msg, ~ In (EvWarning msg) (fst (run w (with_load_average options l))).
Proof.
  intros Hb Hl. apply Z.ltb_ge in Hl.
  assert (Heq : run w (with_load_average options l)
                = run w (with_load_average options 0)).
  { unfold run, backend_cmd. cbn [builddir with_load_average].
    rewrite !(bind_value _ _ _ _ Hb). cbn [py_eq_str].
    change (String.eqb "ninja" "ninja") with true. cbv iota.
    unfold ninja_cmd. cbn [jobs load_average clean builddir with_load_average].
    rewrite Hl. reflexivity. }
  split; [exact Heq |].
  intros msg Hin. rewrite Heq in Hin. clear Heq. revert Hin.
  unfold run. cbn [builddir with_load_average].
  destruct (negb (path_exists w (builddir options))); [intros [] |].
  destruct (negb (is_dir w (builddir options))); [intros [] |].
  unfold backend_cmd. cbn [builddir with_load_average].
  rewrite (bind_value _ _ _ _ Hb). cbn [py_eq_str].
  change (String.eqb "ninja" "ninja") with true. cbv iota.
  assert (H0 : ~ In (EvWarning msg) t0).
  { pose proof (get_backend_trace w (builddir options)) as Ht.
    rewrite Hb in Ht. simpl in Ht.
    destruct Ht as [-> | ->]; simpl; intuition discriminate. }
  pose proof (find_runner_no_warning w msg) as H1.
  destruct (find_runner w) as [t1 [e | r]]; simpl in *.
  - intros Hin. apply in_app_or in Hin. destruct Hin; contradiction.
  - rewrite Popen_safe_eq. simpl. rewrite app_nil_r. intros Hin.
    apply in_app_or in Hin. destruct Hin as [Hin | Hin].
    + apply in_app_or in Hin. destruct Hin; contradiction.
    + simpl in Hin. intuition discriminate.
Qed.

Lemma run_ninja_nonpositive_load_average_witness :
  run (Demo.world (Loaded (Demo.record "ninja")) None ["ninja"] [] (Some 0))
      (with_load_average (Demo.options 2 7 false) (-1))
  = run (Demo.world (Loaded (Demo.record "ninja")) None ["ninja"] [] (Some 0))
        (with_load_average (Demo.options 2 7 false) 0).
Proof.
  apply (run_ninja_nonpositive_load_average
           (Demo.world (Loaded (Demo.record "ninja")) None ["ninja"] [] (Some 0))
           (Demo.options 2 7 false) [EvOpen Demo.intro] (-1)).
  - reflexivity.
  - lia.
Defined.

(** X16. With none of the options given ([add_arguments]' defaults) the
    build directory is the current directory: the file read is
    [meson-info/intro-buildoptions.json] relative to it, and with backend
    [ninja] the command line is just [runner -C .], on POSIX and on Windows
    alike. *)
Theorem run_default_options_ninja (w : World) t0 t1 (runner : string) :
  node w (builddir default_options) = Directory ->
  get_backend_from_introspect w (builddir default_options)
  = (t0, inr (JStr "ninja")) ->
  find_runner w = (t1, inr runner) ->
  run w default_options
  = ((t0 ++ t1 ++ [EvPopen [runner; "-C"; "."]])%list,
     popen_result w [runner; "-C"; "."])
  /\ t0 = [EvOpen (pathlib.mkPath "" ["meson-info"; "intro-buildoptions.json"])].
Proof.
  intros Hdir Hb Hr. split.
  - rewrite (run_spawns w default_options _ _ Hdir
               (backend_cmd_ninja w default_options _ _ _ Hb Hr)).
    rewrite <- app_assoc.
    assert (Hcmd : ninja_cmd w default_options runner = [runner; "-C"; "."]).
    { unfold ninja_cmd, pathlib.as_posix, pathlib.str. simpl.
      destruct (os_flavour w); reflexivity. }
    rewrite Hcmd. reflexivity.
  - pose proof (get_backend_trace w (builddir default_options)) as Ht.
    rewrite Hb in Ht. simpl in Ht. destruct Ht as [-> | ->]; [| reflexivity].
    exfalso. revert Hb. unfold get_backend_from_introspect.
    destruct (negb (path_exists w _)); [discriminate |].
    unfold json_load_file, emit. simpl.
    destruct (load_json w _); simpl; try discriminate.
    destruct (bind (py_iter doc) _) as [t r]. discriminate.
Qed.

Lemma run_default_options_ninja_witness :
  run (mkWorld pathlib.Windows (fun _ => Directory)
               (fun _ => Loaded (Demo.record "ninja"))
               (fun p => p) (fun _ _ => []) (fun _ => None)
               (fun _ => Some "C:\bin\ninja.exe") (fun _ => Some 0))
      default_options
  = ([EvOpen (pathlib.mkPath "" ["meson-info"; "intro-buildoptions.json"]);
      EvWhich "ninja"; EvLog ["Found runner:"; "ninja"];
      EvPopen ["ninja"; "-C"; "."]], inr 0).
Proof.
  apply (run_default_options_ninja
           (mkWorld pathlib.Windows (fun _ => Directory)
                    (fun _ => Loaded (Demo.record "ninja"))
                    (fun p => p) (fun _ _ => []) (fun _ => None)
                    (fun _ => Some "C:\bin\ninja.exe") (fun _ => Some 0))
           [EvOpen (pathlib.mkPath "" ["meson-info"; "intro-buildoptions.json"])]
           [EvWhich "ninja"; EvLog ["Found runner:"; "ninja"]] "ninja").
  - reflexivity.
  - reflexivity.
  - reflexivity.
Defined.
